(** * The Sphinx configuration module [conf.py] of jax-dl

    [conf.py] is a Python module that the documentation builder executes
    once, in a namespace it has prepared, and whose top-level names it then
    reads back as settings.  The module body is a straight-line sequence of
    assignments of literals.

    The embedding below follows the way CPython runs such a body: every
    statement is a computation over the module namespace (a dictionary from
    names to values) that may raise, string literals are loaded as constants,
    a list display evaluates its items from left to right, and an assignment
    stores the value under the target name. *)

From stdpp Require Import gmap strings list fin_maps.

Open Scope string_scope.

(** ** Values and exceptions *)

#[warnings="-register-all"]
Inductive value : Type :=
| VNone
| VBool (b : bool)
| VInt (z : Z)
| VStr (s : string)
| VList (items : list value).

Inductive exn : Type :=
| NameError (name : string)
| TypeError (msg : string).

Inductive except (A : Type) : Type :=
| Ok (a : A)
| Raise (e : exn).

Arguments Ok {A} a.
Arguments Raise {A} e.

(** ** Computations over the module namespace *)

Module Py.

(** A statement or expression of the module body: it receives the
    namespace, and either raises or returns a result with the namespace it
    leaves behind. *)
Definition t (A : Type) : Type :=
  gmap string value → except (A * gmap string value).

Definition ret {A} (a : A) : t A := λ ns, Ok (a, ns).

Definition bind {A B} (c : t A) (k : A → t B) : t B :=
  λ ns, match c ns with
        | Ok (a, ns') => k a ns'
        | Raise e => Raise e
        end.

Definition raise {A} (e : exn) : t A := λ _, Raise e.

(** [name = v] *)
Definition store_name (name : string) (v : value) : t unit :=
  λ ns, Ok (tt, <[name := v]> ns).

(** a name used as an expression; unbound names raise *)
Definition load_name (name : string) : t value :=
  λ ns, match ns !! name with
        | Some v => Ok (v, ns)
        | None => Raise (NameError name)
        end.

(** a string literal *)
Definition str (s : string) : t value := ret (VStr s).

(** the items of a list display, evaluated from left to right *)
Fixpoint eval_items (items : list (t value)) : t (list value) :=
  match items with
  | [] => ret []
  | e :: rest =>
      bind e (λ v, bind (eval_items rest) (λ vs, ret (v :: vs)))
  end.

(** a list display [[e1, ..., en]] *)
Definition list_display (items : list (t value)) : t value :=
  bind (eval_items items) (λ vs, ret (VList vs)).

(** an assignment statement [name = e] *)
Definition assign (name : string) (e : t value) : t unit :=
  bind e (store_name name).

(** two statements in sequence *)
Definition seq (c1 c2 : t unit) : t unit := bind c1 (λ _, c2).

(** running a module body: the namespace it leaves, or the exception *)
Definition exec (body : t unit) (ns : gmap string value)
  : except (gmap string value) :=
  match body ns with
  | Ok (_, ns') => Ok ns'
  | Raise e => Raise e
  end.

End Py.

Declare Scope py_scope.
Delimit Scope py_scope with py.
Notation "name ::= e" := (Py.assign name e)
  (at level 60, no associativity) : py_scope.
Notation "c1 ;;; c2" := (Py.seq c1 c2)
  (at level 100, c2 at level 200, right associativity) : py_scope.

(** ** conf.py *)

Definition conf_py : Py.t unit :=
  ("project" ::= Py.str "Deep Learning with JAX" ;;;
   "copyright" ::= Py.str "2025, Victor An" ;;;
   "author" ::= Py.str "Victor An" ;;;
   "extensions" ::= Py.list_display
     [ Py.str "sphinx.ext.autodoc";
       Py.str "sphinx.ext.viewcode";
       Py.str "nbsphinx" ] ;;;
   "templates_path" ::= Py.list_display [ Py.str "_templates" ] ;;;
   "exclude_patterns" ::= Py.list_display
     [ Py.str "_build"; Py.str "Thumbs.db"; Py.str ".DS_Store" ] ;;;
   "language" ::= Py.str "en" ;;;
   "html_theme" ::= Py.str "sphinx_rtd_theme" ;;;
   "html_static_path" ::= Py.list_display [ Py.str "_static" ] ;;;
   "nbsphinx_execute" ::= Py.str "auto")%py.

(** Evaluating the configuration module in the namespace [ns]. *)
Definition eval_conf (ns : gmap string value) : except (gmap string value) :=
  Py.exec conf_py ns.

(** The names the module assigns, in the order of the assignments. *)
Definition declared_keys : list string :=
  [ "project"; "copyright"; "author"; "extensions"; "templates_path";
    "exclude_patterns"; "language"; "html_theme"; "html_static_path";
    "nbsphinx_execute" ].

(** What the module binds when it starts from an empty namespace. *)
Definition module_bindings : gmap string value :=
  match eval_conf ∅ with
  | Ok ns => ns
  | Raise _ => ∅
  end.

(** ** What the documentation builder expects of a setting *)

(** Modelled from the spec: the modes the notebook extension recognises for
    [nbsphinx_execute]; the extension is an external tool, the spec's table
    of keys gives the enumeration {auto, always, never}. *)
Inductive execute_mode : Type := Auto | Always | Never.

Definition execute_mode_of_string (s : string) : option execute_mode :=
  if decide (s = "auto") then Some Auto
  else if decide (s = "always") then Some Always
  else if decide (s = "never") then Some Never
  else None.

Definition execute_mode_of_value (v : value) : option execute_mode :=
  match v with
  | VStr s => execute_mode_of_string s
  | _ => None
  end.

(** The kinds of value a setting may have. *)
Inductive kind : Type := KString | KStringList | KExecuteMode.

Definition is_string (v : value) : bool :=
  match v with VStr _ => true | _ => false end.

Definition is_string_list (v : value) : bool :=
  match v with VList items => forallb is_string items | _ => false end.

Definition is_execute_mode (v : value) : bool :=
  match execute_mode_of_value v with Some _ => true | None => false end.

Definition has_kind (t : kind) (v : value) : bool :=
  match t with
  | KString => is_string v
  | KStringList => is_string_list v
  | KExecuteMode => is_execute_mode v
  end.

(** Modelled from the spec: the type column of the spec's table of keys
    (the contract of the external builder, which is not part of the
    repository). *)
Definition expected_kind (key : string) : option kind :=
  if decide (key ∈ ["project"; "author"; "copyright"; "language"; "html_theme"])
  then Some KString
  else if decide (key ∈ ["extensions"; "templates_path"; "exclude_patterns";
                         "html_static_path"])
  then Some KStringList
  else if decide (key = "nbsphinx_execute") then Some KExecuteMode
  else None.

(** ** Shapes of values *)

Definition is_bool (v : value) : bool :=
  match v with VBool _ => true | _ => false end.

Definition is_list (v : value) : bool :=
  match v with VList _ => true | _ => false end.

Definition is_nonempty_string (v : value) : bool :=
  match v with
  | VStr s => negb (String.eqb s "")
  | _ => false
  end.

(** The declared keys that a namespace binds to a list. *)
Definition list_valued_keys (ns : gmap string value) : list string :=
  List.filter
    (λ key, match ns !! key with Some v => is_list v | None => false end)
    declared_keys.

(** The assignments of the module body as (target, value) pairs, and their
    execution one after the other on a namespace. *)
Definition run_assignments (bs : list (string * value))
  (ns : gmap string value) : gmap string value :=
  foldl (λ m kv, <[kv.1 := kv.2]> m) ns bs.

(** The assignments of [conf.py], target and assigned value, in the order of
    the file. *)
Definition conf_assignments : list (string * value) :=
  [ ("project", VStr "Deep Learning with JAX");
    ("copyright", VStr "2025, Victor An");
    ("author", VStr "Victor An");
    ("extensions", VList [ VStr "sphinx.ext.autodoc";
                           VStr "sphinx.ext.viewcode";
                           VStr "nbsphinx" ]);
    ("templates_path", VList [ VStr "_templates" ]);
    ("exclude_patterns",
      VList [ VStr "_build"; VStr "Thumbs.db"; VStr ".DS_Store" ]);
    ("language", VStr "en");
    ("html_theme", VStr "sphinx_rtd_theme");
    ("html_static_path", VList [ VStr "_static" ]);
    ("nbsphinx_execute", VStr "auto") ].

(** * Properties *)

Lemma eval_conf_unfold (ns : gmap string value) :
  eval_conf ns = Ok (
    <["nbsphinx_execute" := VStr "auto"]> (
    <["html_static_path" := VList [VStr "_static"]]> (
    <["html_theme" := VStr "sphinx_rtd_theme"]> (
    <["language" := VStr "en"]> (
    <["exclude_patterns" :=
        VList [VStr "_build"; VStr "Thumbs.db"; VStr ".DS_Store"]]> (
    <["templates_path" := VList [VStr "_templates"]]> (
    <["extensions" := VList [VStr "sphinx.ext.autodoc";
                             VStr "sphinx.ext.viewcode";
                             VStr "nbsphinx"]]> (
    <["author" := VStr "Victor An"]> (
    <["copyright" := VStr "2025, Victor An"]> (
    <["project" := VStr "Deep Learning with JAX"]> ns)))))))))).
Proof. reflexivity. Qed.

(** ** The namespace after evaluation *)

Lemma eval_conf_union (ns : gmap string value) :
  eval_conf ns = Ok (module_bindings ∪ ns).
Proof.
  rewrite eval_conf_unfold. unfold module_bindings.
  rewrite eval_conf_unfold, <- !insert_union_l.
  by rewrite (left_id_L ∅ (∪)).
Qed.

Lemma module_bindings_dom :
  dom module_bindings = list_to_set declared_keys.
Proof.
  unfold module_bindings. rewrite eval_conf_unfold.
  rewrite !dom_insert_L, dom_empty_L. simpl. set_solver.
Qed.

Lemma module_bindings_None (k : string) :
  k ∉ declared_keys → module_bindings !! k = None.
Proof.
  intros Hk. apply not_elem_of_dom.
  rewrite module_bindings_dom. by rewrite elem_of_list_to_set.
Qed.

Lemma module_bindings_Some (k : string) :
  k ∈ declared_keys → is_Some (module_bindings !! k).
Proof.
  intros Hk. apply elem_of_dom.
  rewrite module_bindings_dom. by rewrite elem_of_list_to_set.
Qed.

(** A declared key reads, after evaluation, what the module bound. *)
Lemma eval_conf_lookup (ns r : gmap string value) (k : string) (v : value) :
  eval_conf ns = Ok r → module_bindings !! k = Some v → r !! k = Some v.
Proof.
  rewrite eval_conf_union. intros [= <-] Hk.
  by apply lookup_union_Some_l.
Qed.

(** Any other name reads what it read before. *)
Lemma eval_conf_lookup_other (ns r : gmap string value) (k : string) :
  eval_conf ns = Ok r → k ∉ declared_keys → r !! k = ns !! k.
Proof.
  rewrite eval_conf_union. intros [= <-] Hk.
  by apply lookup_union_r, module_bindings_None.
Qed.

(** Rewrites every lookup of a declared key in the namespace [r] that
    evaluation returned (hypothesis [H]) to the value the module bound. *)
Ltac conf_lookups H :=
  repeat match goal with
  | |- context [ ?r !! ?k ] =>
      match type of H with
      | eval_conf _ = Ok r =>
          rewrite (eval_conf_lookup _ r k _ H eq_refl)
      end
  end.

(** Closes [x ∉ [y1; ...; yn]] for closed, pairwise different terms. *)
Ltac not_among :=
  rewrite ?not_elem_of_cons; repeat split;
  solve [ discriminate | apply not_elem_of_nil ].

(** ** List displays *)

Lemma eval_items_str (l : list string) (ns : gmap string value) :
  Py.eval_items (Py.str <$> l) ns = Ok (VStr <$> l, ns).
Proof.
  induction l as [|s l IH]; [done|].
  cbn [fmap list_fmap Py.eval_items] in *.
  unfold Py.bind at 1. cbn [Py.str Py.ret].
  unfold Py.bind at 1. by rewrite IH.
Qed.

Lemma list_display_str (l : list string) (ns : gmap string value) :
  Py.list_display (Py.str <$> l) ns = Ok (VList (VStr <$> l), ns).
Proof. unfold Py.list_display, Py.bind. by rewrite eval_items_str. Qed.

(** The exception branch of the monad is reachable: a body that reads a name
    nobody bound raises. *)
Example exec_unbound_name_raises :
  Py.exec ("project" ::= Py.load_name "release")%py ∅
  = Raise (NameError "release").
Proof. reflexivity. Qed.

(** ** The settings *)

(** C1: evaluating the module binds every declared key (project, copyright,
    author, extensions, templates_path, exclude_patterns, language,
    html_theme, html_static_path, nbsphinx_execute) to a string, a list of
    strings or a recognised execution mode, namely the kind the table of
    keys gives for it; the module binds no other name, so no key gets any
    other kind of value. *)
Theorem conf_settings_kinds (ns : gmap string value) :
  ∃ r, eval_conf ns = Ok r
    ∧ Forall (λ k, ∃ v t, r !! k = Some v
                          ∧ expected_kind k = Some t
                          ∧ has_kind t v = true
                          ∧ is_string v || is_string_list v
                            || is_execute_mode v = true)
        declared_keys
    ∧ dom module_bindings = list_to_set declared_keys.
Proof.
  destruct (eval_conf ns) as [r|e] eqn:Hr;
    [|by rewrite eval_conf_union in Hr].
  exists r. split; [done|]. split; [|apply module_bindings_dom].
  unfold declared_keys.
  repeat (apply Forall_cons; split;
          [conf_lookups Hr; by eexists _, _|]).
  apply Forall_nil_2.
Qed.

(** C2: [nbsphinx_execute] is bound to the string "auto", which is a member
    of the enumeration {auto, always, never}; it is not a boolean. *)
Theorem nbsphinx_execute_auto (ns : gmap string value) :
  ∃ r v, eval_conf ns = Ok r
    ∧ r !! "nbsphinx_execute" = Some v
    ∧ v = VStr "auto"
    ∧ execute_mode_of_value v = Some Auto
    ∧ is_bool v = false.
Proof.
  destruct (eval_conf ns) as [r|e] eqn:Hr;
    [|by rewrite eval_conf_union in Hr].
  exists r, (VStr "auto"). split; [done|].
  by conf_lookups Hr.
Qed.

(** C3: [extensions] is bound to the list of the three identifiers in the
    order in which the list display writes them; in general a list display of
    string literals evaluates to the list of those strings in the same
    order. *)
Theorem extensions_in_order (ns : gmap string value) :
  (∃ r, eval_conf ns = Ok r
     ∧ r !! "extensions"
       = Some (VList [ VStr "sphinx.ext.autodoc";
                       VStr "sphinx.ext.viewcode";
                       VStr "nbsphinx" ]))
  ∧ ∀ l : list string,
      Py.list_display (Py.str <$> l) ns = Ok (VList (VStr <$> l), ns).
Proof.
  split; [|intros l; apply list_display_str].
  destruct (eval_conf ns) as [r|e] eqn:Hr;
    [|by rewrite eval_conf_union in Hr].
  exists r. split; [done|]. by conf_lookups Hr.
Qed.

(** C4: as a computation in the exception monad, evaluating the module
    returns normally from every namespace: it never raises. *)
Theorem eval_conf_ok (ns : gmap string value) :
  ∃ r, eval_conf ns = Ok r.
Proof. rewrite eval_conf_union. by eexists. Qed.

(** C5: the module body is a fixed sequence of assignments of constants
    (one per declared key, in order), carried out one after the other
    whatever the namespace; so two evaluations, from any two namespaces, bind
    every declared key, and to the same value. *)
Theorem eval_conf_deterministic (ns1 ns2 : gmap string value) :
  (∃ bs : list (string * value),
      bs.*1 = declared_keys
      ∧ ∀ ns, eval_conf ns = Ok (run_assignments bs ns))
  ∧ ∃ r1 r2, eval_conf ns1 = Ok r1 ∧ eval_conf ns2 = Ok r2
      ∧ Forall (λ k, is_Some (r1 !! k) ∧ r1 !! k = r2 !! k) declared_keys.
Proof.
  split.
  - exists
      [ ("project", VStr "Deep Learning with JAX");
        ("copyright", VStr "2025, Victor An");
        ("author", VStr "Victor An");
        ("extensions", VList [ VStr "sphinx.ext.autodoc";
                               VStr "sphinx.ext.viewcode";
                               VStr "nbsphinx" ]);
        ("templates_path", VList [ VStr "_templates" ]);
        ("exclude_patterns",
          VList [ VStr "_build"; VStr "Thumbs.db"; VStr ".DS_Store" ]);
        ("language", VStr "en");
        ("html_theme", VStr "sphinx_rtd_theme");
        ("html_static_path", VList [ VStr "_static" ]);
        ("nbsphinx_execute", VStr "auto") ].
    split; [reflexivity|]. intros ns. apply eval_conf_unfold.
  - destruct (eval_conf ns1) as [r1|e] eqn:Hr1;
      [|by rewrite eval_conf_union in Hr1].
    destruct (eval_conf ns2) as [r2|e] eqn:Hr2;
      [|by rewrite eval_conf_union in Hr2].
    exists r1, r2. do 2 (split; [done|]).
    apply Forall_forall. intros k Hk.
    destruct (module_bindings_Some k Hk) as [v Hv].
    rewrite (eval_conf_lookup _ _ _ _ Hr1 Hv).
    rewrite (eval_conf_lookup _ _ _ _ Hr2 Hv). by eauto.
Qed.

(** ** Effect on the namespace *)

(** C6: evaluation only adds the module's own bindings: the namespace it
    leaves is the given one overridden by [module_bindings], which does not
    depend on the given namespace; a declared key reads the module's value
    whatever was there before, and every other name reads what it read
    before. *)
Theorem eval_conf_frame (ns : gmap string value) :
  ∃ r, eval_conf ns = Ok r
    ∧ r = module_bindings ∪ ns
    ∧ dom r = list_to_set declared_keys ∪ dom ns
    ∧ (∀ k, k ∈ declared_keys → r !! k = module_bindings !! k)
    ∧ (∀ k, k ∉ declared_keys → r !! k = ns !! k).
Proof.
  exists (module_bindings ∪ ns).
  split; [apply eval_conf_union|]. split; [done|].
  split; [by rewrite dom_union_L, module_bindings_dom|]. split.
  - intros k Hk. destruct (module_bindings_Some k Hk) as [v Hv].
    rewrite Hv. by apply lookup_union_Some_l.
  - intros k Hk. by apply lookup_union_r, module_bindings_None.
Qed.

Lemma eval_conf_frame_witness :
  ∃ r, eval_conf {[ "tags" := VNone; "language" := VInt 7 ]} = Ok r
    ∧ r !! "tags" = Some VNone
    ∧ r !! "language" = Some (VStr "en").
Proof.
  destruct (eval_conf_frame {[ "tags" := VNone; "language" := VInt 7 ]})
    as (r & Hr & _ & _ & Hown & Hother).
  exists r. split; [exact Hr|]. split.
  - rewrite (Hother "tags"); [reflexivity|].
    apply (bool_decide_unpack _). vm_compute. exact I.
  - rewrite (Hown "language"); [reflexivity|].
    apply (bool_decide_unpack _). vm_compute. exact I.
Defined.

(** ** Scalar settings *)

(** C7: [language] and [html_theme] are bound to the strings "en" and
    "sphinx_rtd_theme": each is a single non-empty string, not a list and
    not an execution mode. *)
Theorem language_and_theme_scalar (ns : gmap string value) :
  ∃ r, eval_conf ns = Ok r
    ∧ r !! "language" = Some (VStr "en")
    ∧ r !! "html_theme" = Some (VStr "sphinx_rtd_theme")
    ∧ Forall (λ k, ∃ v, r !! k = Some v
                        ∧ is_nonempty_string v = true
                        ∧ is_list v = false
                        ∧ is_execute_mode v = false)
        [ "language"; "html_theme" ].
Proof.
  destruct (eval_conf ns) as [r|e] eqn:Hr;
    [|by rewrite eval_conf_union in Hr].
  exists r. split; [done|]. conf_lookups Hr. do 2 (split; [done|]).
  repeat (apply Forall_cons; split;
          [conf_lookups Hr; by eexists|]).
  apply Forall_nil_2.
Qed.

(** ** Consistency between settings *)

(** C8: whenever evaluation binds [nbsphinx_execute], the list bound to
    [extensions] has "nbsphinx" among its elements. *)
Theorem nbsphinx_enabled (ns r : gmap string value) :
  eval_conf ns = Ok r →
  is_Some (r !! "nbsphinx_execute") →
  ∃ items, r !! "extensions" = Some (VList items)
           ∧ VStr "nbsphinx" ∈ items.
Proof.
  intros Hr _. conf_lookups Hr. eexists. split; [done|].
  rewrite !elem_of_cons. by right; right; left.
Qed.

Lemma nbsphinx_enabled_witness :
  ∃ items, module_bindings !! "extensions" = Some (VList items)
           ∧ VStr "nbsphinx" ∈ items.
Proof.
  apply (nbsphinx_enabled ∅ module_bindings).
  - reflexivity.
  - exists (VStr "auto"). reflexivity.
Defined.

(** C9: the declared keys bound to lists are extensions, templates_path,
    exclude_patterns and html_static_path, and each of these lists has at
    least one element and no element twice. *)
Theorem list_settings_nonempty_nodup (ns : gmap string value) :
  ∃ r, eval_conf ns = Ok r
    ∧ list_valued_keys r
      = [ "extensions"; "templates_path"; "exclude_patterns";
          "html_static_path" ]
    ∧ Forall (λ k, ∃ items, r !! k = Some (VList items)
                            ∧ 0 < length items
                            ∧ NoDup items)
        (list_valued_keys r).
Proof.
  destruct (eval_conf ns) as [r|e] eqn:Hr;
    [|by rewrite eval_conf_union in Hr].
  exists r. split; [done|].
  assert (list_valued_keys r
          = [ "extensions"; "templates_path"; "exclude_patterns";
              "html_static_path" ]) as ->.
  { unfold list_valued_keys, declared_keys. cbn [List.filter].
    by conf_lookups Hr. }
  split; [done|].
  repeat (apply Forall_cons; split;
          [conf_lookups Hr; eexists; split; [done|]; split; [simpl; lia|];
           repeat (apply NoDup_cons; split; [not_among|]);
           apply NoDup_nil_2|]).
  apply Forall_nil_2.
Qed.

(** C10: no element of [templates_path] and no element of
    [html_static_path] is an element of [exclude_patterns]. *)
Theorem inputs_not_excluded (ns : gmap string value) :
  ∃ r templates statics excluded,
    eval_conf ns = Ok r
    ∧ r !! "templates_path" = Some (VList templates)
    ∧ r !! "html_static_path" = Some (VList statics)
    ∧ r !! "exclude_patterns" = Some (VList excluded)
    ∧ templates = [ VStr "_templates" ]
    ∧ statics = [ VStr "_static" ]
    ∧ excluded = [ VStr "_build"; VStr "Thumbs.db"; VStr ".DS_Store" ]
    ∧ Forall (λ p, p ∉ excluded) (templates ++ statics).
Proof.
  destruct (eval_conf ns) as [r|e] eqn:Hr;
    [|by rewrite eval_conf_union in Hr].
  exists r. do 3 eexists. split; [done|]. conf_lookups Hr.
  do 6 (split; [reflexivity|]).
  repeat (apply Forall_cons; split; [not_among|]).
  apply Forall_nil_2.
Qed.

(** ** Evaluating again, and the order of the assignments *)

Lemma eval_conf_assignments (ns : gmap string value) :
  eval_conf ns = Ok (run_assignments conf_assignments ns).
Proof. apply eval_conf_unfold. Qed.

Lemma declared_keys_NoDup : NoDup declared_keys.
Proof.
  unfold declared_keys.
  repeat (apply NoDup_cons; split; [not_among|]). apply NoDup_nil_2.
Qed.

(** Assignments to pairwise different targets can be carried out in any
    order. *)
Lemma run_assignments_perm (bs bs' : list (string * value)) :
  bs ≡ₚ bs' → NoDup bs.*1 →
  ∀ ns, run_assignments bs ns = run_assignments bs' ns.
Proof.
  induction 1 as [|kv l l' Hl IH|kv1 kv2 l|l1 l2 l3 H12 IH12 H23 IH23];
    intros Hnd ns.
  - done.
  - apply NoDup_cons in Hnd as [_ Hnd]. by apply IH.
  - apply NoDup_cons in Hnd as [Hne _].
    apply not_elem_of_cons in Hne as [Hne _].
    unfold run_assignments. cbn [foldl]. by rewrite insert_insert_ne.
  - rewrite IH12 by done. apply IH23.
    by rewrite <- (fmap_Permutation fst _ _ H12).
Qed.

(** Two namespaces that read the same at every name the module does not
    declare have the same overriding by the module's bindings. *)
Lemma union_agree_off_declared (ns1 ns2 : gmap string value) :
  (∀ k, k ∉ declared_keys → ns1 !! k = ns2 !! k) →
  module_bindings ∪ ns1 = module_bindings ∪ ns2.
Proof.
  intros Hagree. apply map_eq. intros k.
  destruct (decide (k ∈ declared_keys)) as [Hk|Hk].
  - destruct (module_bindings_Some k Hk) as [v Hv].
    by rewrite !(lookup_union_Some_l _ _ _ _ Hv).
  - rewrite !lookup_union_r by by apply module_bindings_None.
    by apply Hagree.
Qed.

(** X1: what evaluation returns depends on the given namespace exactly
    through the names the module does not declare: two namespaces give the
    same result if and only if they read the same at every name outside the
    declared keys.  In particular whatever a declared key was bound to
    beforehand has no influence. *)
Theorem eval_conf_depends_on_others (ns1 ns2 : gmap string value) :
  eval_conf ns1 = eval_conf ns2
  ↔ ∀ k, k ∉ declared_keys → ns1 !! k = ns2 !! k.
Proof.
  split.
  - intros Heq k Hk.
    destruct (eval_conf ns1) as [r|e] eqn:Hr1;
      [|by rewrite eval_conf_union in Hr1].
    symmetry in Heq.
    rewrite <- (eval_conf_lookup_other ns1 r k Hr1 Hk).
    by rewrite <- (eval_conf_lookup_other ns2 r k Heq Hk).
  - intros Hagree. rewrite !eval_conf_union.
    by rewrite (union_agree_off_declared ns1 ns2 Hagree).
Qed.

Lemma eval_conf_depends_on_others_witness :
  eval_conf {[ "language" := VInt 7 ]} = eval_conf ∅.
Proof.
  apply (eval_conf_depends_on_others {[ "language" := VInt 7 ]} ∅).
  intros k Hk. rewrite lookup_empty. apply lookup_singleton_ne.
  intros <-. apply Hk. apply (bool_decide_unpack _). vm_compute. exact I.
Defined.

(** X2: evaluating the module in the namespace a first evaluation returned
    changes nothing: that namespace is returned again. *)
Theorem eval_conf_idempotent (ns : gmap string value) :
  ∃ r, eval_conf ns = Ok r ∧ eval_conf r = Ok r.
Proof.
  exists (module_bindings ∪ ns). split; [apply eval_conf_union|].
  rewrite eval_conf_union. f_equal.
  by rewrite (assoc_L (∪)), (idemp_L (∪)).
Qed.

(** X3: the module assigns every declared key once, so the order of its
    assignments does not matter: carrying out the same assignments in any
    other order leaves the namespace that evaluation returns. *)
Theorem conf_assignment_order_irrelevant
    (bs : list (string * value)) (ns : gmap string value) :
  bs ≡ₚ conf_assignments →
  NoDup bs.*1 ∧ eval_conf ns = Ok (run_assignments bs ns).
Proof.
  intros Hperm.
  assert (NoDup bs.*1) as Hnd.
  { rewrite (fmap_Permutation fst _ _ Hperm). apply declared_keys_NoDup. }
  split; [done|].
  rewrite eval_conf_assignments. f_equal. symmetry.
  by apply run_assignments_perm.
Qed.

Lemma conf_assignment_order_irrelevant_witness :
  NoDup (reverse conf_assignments).*1
  ∧ eval_conf {[ "tags" := VNone ]}
    = Ok (run_assignments (reverse conf_assignments) {[ "tags" := VNone ]}).
Proof.
  apply (conf_assignment_order_irrelevant (reverse conf_assignments)).
  apply reverse_Permutation.
Defined.
